(** * verify_landing_page_flow.py: the landing-page smoke test

    The script drives a headless browser through Playwright's synchronous
    API: it opens the landing page, waits for a heading, takes a
    screenshot, clicks the login button, waits for a second heading and
    takes a second screenshot.

    The development has three layers.
    - [Script]: the Python text of [run] and of the [__main__] block as
      programs over an arbitrary implementation of the browser calls
      (class [Browser]).  Statements are sequenced with Python's exception
      semantics: the first call that raises ends the enclosing block.
    - [Playwright]: a model of the calls the script uses, following the
      documented behaviour of playwright.sync_api, over a target
      application, a file system and the process environment.  It covers
      a session in which the host does its part: the driver starts, the
      browser is installed and launches, the disk takes the screenshots.
      The text functions of the browser (JavaScript's [toUpperCase],
      Playwright's [normalizeWhiteSpace]) are taken as given, class
      [Engine].
    - [Host]: the same calls on a machine where the launch looks for the
      browser under PLAYWRIGHT_BROWSERS_PATH and can fail.
    - the properties of the script, first for every [Browser], then for
      the Playwright model. *)

From Stdlib Require Import Strings.String Strings.Ascii Strings.Byte.
From stdpp Require Import base option list strings gmap fin_maps.

Local Open Scope string_scope.
Local Open Scope list_scope.

(** ** Errors

    The script names no exception class; it lets whatever the library
    raises reach the top level.  Failures are classified by their cause:
    - [NavigationError]: [page.goto] could not load the address
      (playwright [Error], net::ERR_...);
    - [VisibilityTimeout]: [expect(locator).to_be_visible()] gave up
      ([AssertionError]);
    - [ElementResolutionError]: a locator that must stand for one element
      does not: [locator.click()] found no single actionable element
      (playwright [TimeoutError] when none is there, strict-mode [Error]
      when several are), or a wait found several (the same strict-mode
      [Error], raised at once);
    - [TargetClosedError]: a call on a browser or page that is not open;
    - [LaunchError]: [launch] found no browser to start (playwright
      [Error], the executable does not exist). *)
Inductive Exn : Set :=
  | NavigationError
  | VisibilityTimeout
  | ElementResolutionError
  | TargetClosedError
  | LaunchError.

#[global] Instance Exn_eq_dec : EqDecision Exn.
Proof. solve_decision. Defined.

(** ** Locators and calls *)

(** [page.get_by_role(role, name=..., exact=...)]: a lazy description of
    elements; building it talks to no browser. *)
Record Locator : Set := {
  loc_role : string;
  loc_name : string;
  loc_exact : bool
}.

#[global] Instance Locator_eq_dec : EqDecision Locator.
Proof. solve_decision. Defined.

(** The script never passes [exact], whose default is false. *)
Definition get_by_role (role name : string) : Locator :=
  {| loc_role := role; loc_name := name; loc_exact := false |}.

(** The operations of the browser capability that the file uses. *)
Inductive Call : Set :=
  | Start                          (* sync_playwright().__enter__() *)
  | Stop                           (* sync_playwright().__exit__(...) *)
  | Launch (headless : bool)       (* p.chromium.launch(headless=...) *)
  | NewPage                        (* browser.new_page() *)
  | BrowserClose                   (* browser.close() *)
  | Goto (url : string)            (* page.goto(url) *)
  | ToBeVisible (l : Locator)      (* expect(l).to_be_visible() *)
  | Screenshot (path : string)     (* page.screenshot(path=...) *)
  | Click (l : Locator).           (* l.click() *)

#[global] Instance Call_eq_dec : EqDecision Call.
Proof. solve_decision. Defined.

(** An implementation of the capability: each call either returns
    ([None]) or raises, and moves the outside world from one state to the
    next. *)
Class Browser (W : Type) := perform : Call → W → option Exn * W.

(** ** The script *)
Module Script.

(** What a block of statements has done when control leaves it: how it
    ended, the calls it issued (in order), and the world it left. *)
Record Run (W A : Type) : Type := mkRun {
  result : Exn + A;
  issued : list Call;
  final : W
}.
Arguments mkRun {W A} _ _ _.
Arguments result {W A} _.
Arguments issued {W A} _.
Arguments final {W A} _.

Definition M (W A : Type) : Type := W → Run W A.

Definition ret {W A} (a : A) : M W A :=
  fun w => mkRun (inr a) [] w.

(** [s1; s2]: when [s1] raises, [s2] is not run. *)
Definition bind {W A B} (m : M W A) (f : A → M W B) : M W B :=
  fun w =>
    let r := m w in
    match result r with
    | inl e => mkRun (inl e) (issued r) (final r)
    | inr a =>
        let r' := f a (final r) in
        mkRun (result r') (issued r ++ issued r') (final r')
    end.

Definition call {W} `{Browser W} (c : Call) : M W unit :=
  fun w =>
    let '(o, w') := perform c w in
    mkRun (match o with Some e => inl e | None => inr tt end) [c] w'.

(** [with cm as x: body], for a context manager whose [__exit__] does
    not swallow exceptions: [exit] runs on both ways out of [body], and
    an exception of [body] is raised again afterwards. *)
Definition with_ {W A B} (enter : M W A) (exit : M W unit)
    (body : A → M W B) : M W B :=
  fun w =>
    let r := enter w in
    match result r with
    | inl e => mkRun (inl e) (issued r) (final r)
    | inr a =>
        let rb := body a (final r) in
        let rx := exit (final rb) in
        mkRun (match result rx with
               | inl e => inl e
               | inr _ => result rb
               end)
              (issued r ++ issued rb ++ issued rx) (final rx)
    end.

Declare Scope script_scope.
Delimit Scope script_scope with script.
Notation "s1 ;; s2" := (bind s1 (fun _ => s2))
  (at level 100, right associativity) : script_scope.
Local Open Scope script_scope.

Section Program.
Context {W : Type} `{Browser W}.

(** [def run(page: Page)].  A function body without [return] gives
    [None], here [tt]. *)
Definition run : M W unit :=
  call (Goto "http://localhost:5000") ;;
  call (ToBeVisible
          (get_by_role "heading" "The Future of AI Automation is Here")) ;;
  call (Screenshot "jules-scratch/verification/landing_page.png") ;;
  call (Click (get_by_role "button" "Login")) ;;
  call (ToBeVisible (get_by_role "heading" "Welcome to AuraOS")) ;;
  call (Screenshot "jules-scratch/verification/login_page.png").

(** The block under [if __name__ == "__main__":]. *)
Definition main : M W unit :=
  with_ (call Start) (call Stop) (fun _ =>
    call (Launch true) ;;
    call NewPage ;;
    run ;;
    call BrowserClose).

(** The module's top level, executed on import and on direct
    execution: the [import] and the [def] bind names, the guard
    decides whether [main] runs. *)
Definition toplevel (name : string) : M W unit :=
  if String.eqb name "__main__" then main else ret tt.

(** Running statements one after the other. *)
Fixpoint calls (cs : list Call) : M W unit :=
  match cs with
  | [] => ret tt
  | c :: cs' => call c ;; calls cs'
  end.

End Program.

(** The process status Python reports: 0 when the top level ends, 1
    when an exception is left unhandled. *)
Definition exit_code {W A} (r : Run W A) : Z :=
  match result r with inl _ => 1%Z | inr _ => 0%Z end.

(** Two runs went the same way: same outcome, same calls, and final
    worlds related by [R]. *)
Definition alike {W A} (R : W → W → Prop) (r1 r2 : Run W A) : Prop :=
  result r1 = result r2 ∧ issued r1 = issued r2 ∧ R (final r1) (final r2).

End Script.

(** ** The browser capability, after playwright.sync_api *)
Module Playwright.

(** An element of the rendered page as the accessibility tree exposes
    it: its ARIA role, its accessible name as the browser computes it,
    and whether Playwright counts it as visible. *)
Record Element : Set := {
  el_role : string;
  el_name : string;
  el_visible : bool
}.

(** What the page shows once it has settled, that is within the time a
    wait allows. *)
Abbreviation View := (list Element).

(** The text functions the name test relies on.  They belong to the
    browser, not to the script, and are taken as given: JavaScript's
    [String.prototype.toUpperCase] and Playwright's
    [normalizeWhiteSpace] (trim, and one space for each run of white
    space). *)
Class Engine : Type := {
  toUpperCase : string → string;
  normalizeWhiteSpace : string → string
}.

(** [s.includes(sub)]. *)
Fixpoint includes (s sub : string) : bool :=
  match s with
  | EmptyString => String.prefix sub EmptyString
  | String _ s' => String.prefix sub s || includes s' sub
  end.

Section WithEngine.
Context `{Engine}.

(** The name test of the role selector, on the accessible name and the
    requested name, both with white space normalised.  Without [exact]
    it is [accessible.toUpperCase().includes(name.toUpperCase())], with
    [exact] it is equality. *)
Definition name_matches (l : Locator) (accessible : string) : bool :=
  let acc := normalizeWhiteSpace accessible in
  let name := normalizeWhiteSpace (loc_name l) in
  if loc_exact l then String.eqb acc name
  else includes (toUpperCase acc) (toUpperCase name).

Definition matches (l : Locator) (e : Element) : bool :=
  String.eqb (el_role e) (loc_role l) && name_matches l (el_name e).

(** The elements a locator stands for on a view. *)
Definition resolve (l : Locator) (v : View) : list Element :=
  List.filter (matches l) v.

(** The one element a wait or a click can act on: the locator must
    stand for exactly one element (strict mode) and that element must be
    visible. *)
Definition single_visible (l : Locator) (v : View) : option Element :=
  match resolve l v with
  | [e] => if el_visible e then Some e else None
  | _ => None
  end.

(** What [expect(l).to_be_visible()] does on a view: it returns
    ([None]) when the locator stands for one element and that element is
    visible; it gives up after the timeout when there is none or the one
    is not visible; it raises the strict-mode error at once when there
    are several. *)
Definition to_be_visible (l : Locator) (v : View) : option Exn :=
  match resolve l v with
  | [] => Some VisibilityTimeout
  | [e] => if el_visible e then None else Some VisibilityTimeout
  | _ :: _ :: _ => Some ElementResolutionError
  end.

End WithEngine.

(** The application under test and the rasteriser, both outside the
    script: what an address answers ([None]: nothing answers there), what
    the page shows after a control has been activated, and the image data
    of a view. *)
Record Target : Type := {
  respond : string → option View;
  activate : View → Element → View;
  pixels : View → list byte
}.

Definition png_signature : list byte :=
  [x89; x50; x4e; x47; x0d; x0a; x1a; x0a].

(** The file [page.screenshot] writes: a PNG, so the signature comes
    first. *)
Definition png (t : Target) (v : View) : list byte :=
  png_signature ++ pixels t v.

Inductive Lifecycle : Set := Absent | Live | Released.

#[global] Instance Lifecycle_eq_dec : EqDecision Lifecycle.
Proof. solve_decision. Defined.

Inductive Resource : Set := PageHandle | BrowserProcess.

#[global] Instance Resource_eq_dec : EqDecision Resource.
Proof. solve_decision. Defined.

(** Everything outside the interpreter: the target, the files on disk
    by path (relative to where the script is started), the environment
    variables, the driver process behind [sync_playwright], the one
    browser and the one page the script creates, what the page shows,
    and the releases that have happened so far. *)
Record World : Type := mkWorld {
  target : Target;
  fs : gmap string (list byte);
  environ : gmap string string;
  driver : bool;
  browser : Lifecycle;
  page : Lifecycle;
  view : View;
  released : list Resource
}.

Definition set_fs (f : gmap string (list byte)) (w : World) : World :=
  mkWorld (target w) f (environ w) (driver w) (browser w) (page w) (view w)
          (released w).

Definition set_driver (d : bool) (w : World) : World :=
  mkWorld (target w) (fs w) (environ w) d (browser w) (page w) (view w)
          (released w).

Definition set_browser (b : Lifecycle) (w : World) : World :=
  mkWorld (target w) (fs w) (environ w) (driver w) b (page w) (view w)
          (released w).

Definition set_page (p : Lifecycle) (w : World) : World :=
  mkWorld (target w) (fs w) (environ w) (driver w) (browser w) p (view w)
          (released w).

Definition set_view (v : View) (w : World) : World :=
  mkWorld (target w) (fs w) (environ w) (driver w) (browser w) (page w) v
          (released w).

Definition release (r : Resource) (w : World) : World :=
  mkWorld (target w) (fs w) (environ w) (driver w) (browser w) (page w)
          (view w) (released w ++ [r]).

(** Closing the browser closes its pages first; closing what is not
    open does nothing. *)
Definition release_all (w : World) : World :=
  let w1 :=
    match page w with
    | Live => release PageHandle (set_page Released w)
    | _ => w
    end in
  match browser w1 with
  | Live => release BrowserProcess (set_browser Released w1)
  | _ => w1
  end.

Section Calls.
Context `{Engine}.

(** A call on the page needs the page to be open. *)
Definition on_page (w : World) (k : option Exn * World) : option Exn * World :=
  match page w with
  | Live => k
  | _ => (Some TargetClosedError, w)
  end.

(** The calls, in a session in which the host does its part: the
    driver starts and stops, the browser is found and launches, the disk
    takes the screenshots (module [Host] has a launch that can fail).  A
    control that is visible is taken to be one that can be clicked:
    enabled, at rest and not covered. *)
Definition pw_perform (c : Call) (w : World) : option Exn * World :=
  match c with
  | Start => (None, set_driver true w)
  | Stop => (None, set_driver false (release_all w))
  | Launch _ =>
      if driver w then (None, set_browser Live w)
      else (Some TargetClosedError, w)
  | NewPage =>
      match browser w with
      | Live => (None, set_view [] (set_page Live w))
      | _ => (Some TargetClosedError, w)
      end
  | BrowserClose => (None, release_all w)
  | Goto url =>
      on_page w
        match respond (target w) url with
        | Some v => (None, set_view v w)
        | None => (Some NavigationError, w)
        end
  | ToBeVisible l => on_page w (to_be_visible l (view w), w)
  | Screenshot path =>
      on_page w (None, set_fs (<[path := png (target w) (view w)]> (fs w)) w)
  | Click l =>
      on_page w
        match single_visible l (view w) with
        | Some e => (None, set_view (activate (target w) (view w) e) w)
        | None => (Some ElementResolutionError, w)
        end
  end.

End Calls.

#[global] Instance playwright `{Engine} : Browser World := pw_perform.

(** The world a fresh Python process starts in. *)
Definition boot (t : Target) (files : gmap string (list byte))
    (env : gmap string string) : World :=
  mkWorld t files env false Absent Absent [] [].

(** [python verify_landing_page_flow.py]. *)
Definition python `{Engine} (w : World) : Script.Run World unit :=
  Script.toplevel "__main__" w.

End Playwright.

(** ** The same calls on a machine *)
Module Host.
Import Playwright.

(** The machine the script runs on: which browsers directory holds a
    Chromium build ([None]: the default directory), and the session. *)
Record Machine : Type := mkMachine {
  chromium_in : option string → bool;
  session : World
}.

Definition in_session (m : Machine) (r : option Exn * World)
    : option Exn * Machine :=
  (r.1, mkMachine (chromium_in m) r.2).

(** [launch] looks for the browser in the directory that the
    environment variable PLAYWRIGHT_BROWSERS_PATH names, in the default
    directory when the variable is not set; every other call is the
    session's. *)
Definition host_perform `{Engine} (c : Call) (m : Machine)
    : option Exn * Machine :=
  match c with
  | Launch _ =>
      if chromium_in m (environ (session m) !! "PLAYWRIGHT_BROWSERS_PATH")
      then in_session m (pw_perform c (session m))
      else (Some LaunchError, m)
  | _ => in_session m (pw_perform c (session m))
  end.

#[global] Instance machine `{Engine} : Browser Machine := host_perform.

End Host.

Import Script Playwright Host.
Local Open Scope script_scope.

(** ** The contract, in the words of the specification *)

Definition landing_url : string := "http://localhost:5000".
Definition landing_text : string := "The Future of AI Automation is Here".
Definition login_label : string := "Login".
Definition login_text : string := "Welcome to AuraOS".
Definition landing_png : string := "jules-scratch/verification/landing_page.png".
Definition login_png : string := "jules-scratch/verification/login_page.png".

Definition landing_heading : Locator := get_by_role "heading" landing_text.
Definition login_button : Locator := get_by_role "button" login_label.
Definition login_heading : Locator := get_by_role "heading" login_text.

(** Steps a to f of the contract of [run]. *)
Definition six_steps : list Call :=
  [ Goto landing_url;
    ToBeVisible landing_heading;
    Screenshot landing_png;
    Click login_button;
    ToBeVisible login_heading;
    Screenshot login_png ].

(** The statements under the [with] of the main block. *)
Definition body_steps : list Call :=
  [Launch true; NewPage] ++ six_steps ++ [BrowserClose].

(** A correctly behaving target: the landing view has the landing
    heading, it has exactly one login control, and activating that
    control brings up the second heading. *)
Definition well_behaved `{Engine} (t : Target) : Prop :=
  ∃ v b,
    respond t landing_url = Some v ∧
    is_Some (single_visible landing_heading v) ∧
    single_visible login_button v = Some b ∧
    is_Some (single_visible login_heading (activate t v b)).

(** A view renders a heading whose text is exactly [text]. *)
Definition renders_heading_exactly (text : string) (v : View) : Prop :=
  ∃ e, e ∈ v ∧ el_role e = "heading" ∧ el_visible e = true ∧ el_name e = text.


(** A correctly behaving target in the words of the claim: the landing
    heading is present, there is exactly one login control, and the
    second heading appears after the click. *)
Definition behaves_as_claimed `{Engine} (t : Target) : Prop :=
  ∃ v b,
    respond t landing_url = Some v ∧
    renders_heading_exactly landing_text v ∧
    resolve login_button v = [b] ∧ el_visible b = true ∧
    renders_heading_exactly login_text (activate t v b).

(** The world in which [run] is called by the main block: the driver is
    up, the browser is launched and the page is open and blank. *)
Definition opened (t : Target) (files : gmap string (list byte))
    (env : gmap string string) : World :=
  mkWorld t files env true Live Live [] [].

(** The calls of [run]: those made on the page. *)
Definition on_the_page (c : Call) : bool :=
  match c with
  | Goto _ | ToBeVisible _ | Screenshot _ | Click _ => true
  | _ => false
  end.

(** What two worlds share when they differ in persisted state only
    (files and environment variables). *)
Definition same_session (w1 w2 : World) : Prop :=
  target w1 = target w2 ∧ driver w1 = driver w2 ∧ browser w1 = browser w2 ∧
  page w1 = page w2 ∧ view w1 = view w2 ∧ released w1 = released w2.

(** Every call the file can issue, with its arguments. *)
Definition all_calls : list Call :=
  [ Start; Launch true; NewPage;
    Goto "http://localhost:5000";
    ToBeVisible {| loc_role := "heading";
                   loc_name := "The Future of AI Automation is Here";
                   loc_exact := false |};
    Screenshot "jules-scratch/verification/landing_page.png";
    Click {| loc_role := "button"; loc_name := "Login"; loc_exact := false |};
    ToBeVisible {| loc_role := "heading"; loc_name := "Welcome to AuraOS";
                   loc_exact := false |};
    Screenshot "jules-scratch/verification/login_page.png";
    BrowserClose; Stop ].

Definition writes_file (c : Call) : bool :=
  match c with Screenshot _ => true | _ => false end.

(** ** Sample targets *)
Module Sample.

(** The text functions on ASCII text, which is all the samples hold:
    upper case for the letters a to z, and white space normalised over
    space, tab, line feed, vertical tab, form feed and carriage return. *)
Definition upper_ascii (c : ascii) : ascii :=
  let n := nat_of_ascii c in
  if Nat.leb 97 n && Nat.leb n 122 then ascii_of_nat (n - 32) else c.

Fixpoint ascii_toUpperCase (s : string) : string :=
  match s with
  | EmptyString => EmptyString
  | String c s' => String (upper_ascii c) (ascii_toUpperCase s')
  end.

Definition is_space (c : ascii) : bool :=
  let n := nat_of_ascii c in
  Nat.eqb n 32 || (Nat.leb 9 n && Nat.leb n 13).

(** [pending]: a run of white space has been read since the last
    character kept; [started]: a character has been kept. *)
Fixpoint squeeze (pending started : bool) (s : string) : string :=
  match s with
  | EmptyString => EmptyString
  | String c s' =>
      if is_space c then squeeze started started s'
      else
        let rest := String c (squeeze false true s') in
        if pending then String " " rest else rest
  end.

Definition ascii_normalizeWhiteSpace (s : string) : string :=
  squeeze false false s.

Definition ascii_text : Engine :=
  {| toUpperCase := ascii_toUpperCase;
     normalizeWhiteSpace := ascii_normalizeWhiteSpace |}.

Definition hero : Element :=
  {| el_role := "heading"; el_name := "The Future of AI Automation is Here";
     el_visible := true |}.
Definition hero_longer : Element :=
  {| el_role := "heading";
     el_name := "The Future of AI Automation is Here, Today";
     el_visible := true |}.
Definition login : Element :=
  {| el_role := "button"; el_name := "Login"; el_visible := true |}.
Definition login_google : Element :=
  {| el_role := "button"; el_name := "Login with Google"; el_visible := true |}.
Definition welcome : Element :=
  {| el_role := "heading"; el_name := "Welcome to AuraOS"; el_visible := true |}.

Definition raster (v : View) : list byte := List.repeat x00 (length v).

(** A site that serves the given landing view on port 5000 and shows the
    welcome heading once a button has been clicked. *)
Definition site (landing : View) : Target :=
  {| respond := fun url =>
       if String.eqb url "http://localhost:5000" then Some landing else None;
     activate := fun v e =>
       if String.eqb (el_role e) "button" then [welcome] else v;
     pixels := raster |}.

Definition site_ok : Target := site [hero; login].
Definition site_no_login : Target := site [hero].
Definition site_two_logins : Target := site [hero; login; login_google].


(** Nothing listens on the port. *)
Definition site_down : Target :=
  {| respond := fun _ => None; activate := fun v _ => v; pixels := raster |}.

(** A site whose login button does nothing when clicked. *)
Definition site_stuck : Target :=
  {| respond := fun url =>
       if String.eqb url "http://localhost:5000" then Some [hero; login]
       else None;
     activate := fun v _ => v;
     pixels := raster |}.

(** A site with two headings that both carry the landing text. *)
Definition site_two_heroes : Target := site [hero; hero_longer; login].

(** What an earlier run may have left at an output path. *)
Definition stale : list byte := [x01].

(** A machine with Chromium in the default browsers directory only, on
    which the script is started against [site_ok] with the given
    environment variables and no file. *)
Definition default_install (env : gmap string string) : Machine :=
  mkMachine (fun dir => match dir with None => true | Some _ => false end)
            (boot site_ok ∅ env).

Definition plain_env : gmap string string := ∅.
Definition moved_env : gmap string string :=
  {[ "PLAYWRIGHT_BROWSERS_PATH" := "/opt/browsers" ]}.

End Sample.

(** * Properties *)

(** ** For every implementation of the browser calls *)
Section AnyBrowser.
Context {W : Type} `{Browser W}.

Lemma call_returns (c : Call) (w w' : W) :
  perform c w = (None, w') → call c w = mkRun (inr tt) [c] w'.
Proof. intros E. unfold call. now rewrite E. Qed.

Lemma call_raises (c : Call) (e : Exn) (w w' : W) :
  perform c w = (Some e, w') → call c w = mkRun (inl e) [c] w'.
Proof. intros E. unfold call. now rewrite E. Qed.

Lemma calls_cons_returns (c : Call) (cs : list Call) (w w' : W) :
  perform c w = (None, w') →
  calls (c :: cs) w =
    mkRun (result (calls cs w')) (c :: issued (calls cs w'))
          (final (calls cs w')).
Proof.
  intros E. simpl. unfold bind. now rewrite (call_returns _ _ _ E).
Qed.

Lemma calls_cons_raises (c : Call) (cs : list Call) (e : Exn) (w w' : W) :
  perform c w = (Some e, w') →
  calls (c :: cs) w = mkRun (inl e) [c] w'.
Proof.
  intros E. simpl. unfold bind. now rewrite (call_raises _ _ _ _ E).
Qed.

Lemma bind_ext {A B} (m : M W A) (f g : A → M W B) (w : W) :
  (∀ a w', f a w' = g a w') → bind m f w = bind m g w.
Proof.
  intros E. unfold bind. destruct (result (m w)); [reflexivity|].
  now rewrite E.
Qed.

Lemma calls_single (c : Call) (w : W) : calls [c] w = call c w.
Proof.
  simpl. unfold bind, ret.
  destruct (call c w) as [[e|[]] i f]; simpl; now rewrite ?app_nil_r.
Qed.

(** The body of [run] is its six statements, one after the other. *)
Lemma run_calls (w : W) : run w = calls six_steps w.
Proof.
  unfold run, six_steps.
  do 5 (apply bind_ext; intros _ ?).
  symmetry. apply calls_single.
Qed.

Lemma six_steps_NoDup : NoDup six_steps.
Proof. apply (bool_decide_unpack _). vm_compute. exact I. Qed.

(** The calls issued are always an initial segment of the statements. *)
Lemma calls_issued_prefix (cs : list Call) (w : W) :
  issued (calls cs w) `prefix_of` cs.
Proof.
  revert w. induction cs as [|c cs IH]; intros w.
  - simpl. reflexivity.
  - destruct (perform c w) as [[e|] w'] eqn:E.
    + rewrite (calls_cons_raises _ _ _ _ _ E). simpl.
      apply prefix_cons, prefix_nil.
    + rewrite (calls_cons_returns _ _ _ _ E). simpl.
      apply prefix_cons, IH.
Qed.

(** No statement is issued twice. *)
Lemma calls_issued_NoDup (cs : list Call) (w : W) :
  NoDup cs → NoDup (issued (calls cs w)).
Proof.
  intros N. destruct (calls_issued_prefix cs w) as [rest E].
  rewrite E in N. now apply NoDup_app in N.
Qed.

(** When the block ends normally every statement has been executed. *)
Lemma calls_issued_all (cs : list Call) (w : W) (a : unit) :
  result (calls cs w) = inr a → issued (calls cs w) = cs.
Proof.
  revert w. induction cs as [|c cs IH]; intros w.
  - reflexivity.
  - destruct (perform c w) as [[e|] w'] eqn:E.
    + rewrite (calls_cons_raises _ _ _ _ _ E). simpl. discriminate.
    + rewrite (calls_cons_returns _ _ _ _ E). simpl.
      intros R. f_equal. now apply IH.
Qed.


Lemma calls_app (cs1 cs2 : list Call) (w : W) :
  calls (cs1 ++ cs2) w = bind (calls cs1) (fun _ => calls cs2) w.
Proof.
  revert w. induction cs1 as [|c cs1 IH]; intros w.
  - simpl. unfold bind, ret. simpl. now destruct (calls cs2 w).
  - destruct (perform c w) as [[e|] w'] eqn:E; simpl app.
    + rewrite (calls_cons_raises _ _ _ _ _ E). unfold bind.
      now rewrite (calls_cons_raises _ _ _ _ _ E).
    + rewrite (calls_cons_returns _ _ _ _ E), IH. unfold bind.
      rewrite (calls_cons_returns _ _ _ _ E). simpl.
      now destruct (result (calls cs1 w')).
Qed.

(** The statements under the [with] are [body_steps], one after the
    other. *)
Lemma body_calls (w : W) :
  (call (Launch true) ;; call NewPage ;; run ;; call BrowserClose) w =
  calls body_steps w.
Proof.
  unfold body_steps.
  change ([Launch true; NewPage] ++ six_steps ++ [BrowserClose])
    with (Launch true :: NewPage :: (six_steps ++ [BrowserClose])).
  change (calls (Launch true :: NewPage :: (six_steps ++ [BrowserClose])))
    with (call (Launch true) ;; call NewPage ;;
          calls (six_steps ++ [BrowserClose])).
  apply bind_ext; intros _ w1. apply bind_ext; intros _ w2.
  rewrite calls_app. unfold bind. rewrite run_calls.
  destruct (result (calls six_steps w2)); [reflexivity|].
  now rewrite calls_single.
Qed.

(** The main block: [Start], then the body, then [Stop] whatever the
    body did. *)
Lemma main_unfold (w : W) :
  main w =
    with_ (call Start) (call Stop) (fun _ => calls body_steps) w.
Proof.
  unfold main, with_. destruct (result (call Start w)); [reflexivity|].
  now rewrite body_calls.
Qed.

Lemma call_issued (c : Call) (w : W) : issued (call c w) = [c].
Proof. unfold call. now destruct (perform c w). Qed.

(** Every call of the main block is [Start], a statement of the body,
    or [Stop]. *)
Lemma main_issued (w : W) (c : Call) :
  c ∈ issued (main w) → c ∈ Start :: body_steps ++ [Stop].
Proof.
  rewrite main_unfold. unfold with_.
  destruct (result (call Start w)); cbn [issued]; rewrite !call_issued.
  - intros ->%list_elem_of_singleton. left.
  - destruct (calls_issued_prefix body_steps (final (call Start w)))
      as [rest E].
    rewrite !elem_of_app, !elem_of_cons, !elem_of_app, list_elem_of_singleton.
    rewrite E at 2. rewrite elem_of_app, !elem_of_nil. tauto.
Qed.

(** C1 (amended). Whatever the browser does, the calls [run] issues are
    an initial segment of the six steps (navigate, wait for the first
    heading, landing screenshot, click login, wait for the second
    heading, login screenshot), each issued once; when no step fails they
    are exactly the six, in that order. *)
Theorem run_performs_six_steps_unless_one_fails (w : W) :
  (∀ a, result (run w) = inr a → issued (run w) = six_steps) ∧
  issued (run w) `prefix_of` six_steps ∧
  NoDup (issued (run w)).
Proof.
  rewrite run_calls. split; [|split].
  - intros a. apply calls_issued_all.
  - apply calls_issued_prefix.
  - apply calls_issued_NoDup, six_steps_NoDup.
Qed.


(** C10. Under any module name other than "__main__" the top level of
    the file issues no call and leaves the world as it found it; the
    calls are reached through the guard only, where the top level is the
    main block; and [run], when it returns, returns [None]. *)
Theorem import_has_no_effect (name : string) (w : W) :
  name ≠ "__main__" →
  toplevel name w = mkRun (inr tt) [] w ∧
  toplevel "__main__" w = main w ∧
  (∀ a, result (run w) = inr a → a = tt).
Proof.
  intros N. split; [|split].
  - unfold toplevel.
    destruct (String.eqb_spec name "__main__") as [->|_]; [now destruct N|].
    reflexivity.
  - reflexivity.
  - now intros [].
Qed.

End AnyBrowser.

(** Two executions on worlds related by [rel] go the same way when every
    call treats related worlds alike. *)
Section Simulation.
Context {W : Type} `{Browser W} (rel : W → W → Prop).
Hypothesis perform_related : ∀ c w1 w2,
  rel w1 w2 →
  (perform c w1).1 = (perform c w2).1 ∧ rel (perform c w1).2 (perform c w2).2.

Lemma call_alike (c : Call) (w1 w2 : W) :
  rel w1 w2 → alike rel (call c w1) (call c w2).
Proof.
  intros Hw. destruct (perform_related c _ _ Hw) as [Ho Hf].
  unfold alike, call.
  destruct (perform c w1) as [o1 w1'], (perform c w2) as [o2 w2'].
  simpl in *. subst o2. auto.
Qed.

Lemma calls_alike (cs : list Call) (w1 w2 : W) :
  rel w1 w2 → alike rel (calls cs w1) (calls cs w2).
Proof.
  revert w1 w2. induction cs as [|c cs IH]; intros w1 w2 Hw.
  - now repeat split.
  - destruct (call_alike c _ _ Hw) as (Hr & Hi & Hf).
    simpl. unfold bind. rewrite <- Hr, <- Hi.
    destruct (result (call c w1)) as [e|[]].
    + now repeat split.
    + destruct (IH _ _ Hf) as (Hr' & Hi' & Hf').
      unfold alike. cbn [result issued final]. rewrite Hr', Hi'. auto.
Qed.

Lemma main_alike (w1 w2 : W) : rel w1 w2 → alike rel (main w1) (main w2).
Proof.
  intros Hw. rewrite !main_unfold. unfold with_.
  destruct (call_alike Start _ _ Hw) as (Hr & Hi & Hf).
  rewrite <- Hr, <- Hi. destruct (result (call Start w1)) as [e|[]].
  - now repeat split.
  - destruct (calls_alike body_steps _ _ Hf) as (Hr' & Hi' & Hf').
    destruct (call_alike Stop _ _ Hf') as (Hr'' & Hi'' & Hf'').
    unfold alike. cbn [result issued final].
    rewrite Hr', Hi', Hr'', Hi''. auto.
Qed.

End Simulation.

(** The script brings its own arguments. *)
Section Configuration.
Context {W : Type} `{Browser W}.

(** The calls of the main block: [Start] alone when the entry fails,
    otherwise [Start], an initial segment of the body, [Stop]. *)
Lemma main_issued_shape (w : W) :
  issued (main w) = [Start] ∨
  ∃ p, p `prefix_of` body_steps ∧ issued (main w) = Start :: p ++ [Stop].
Proof.
  rewrite main_unfold. unfold with_.
  destruct (result (call Start w)); cbn [issued]; rewrite !call_issued.
  - now left.
  - right. exists (issued (calls body_steps (final (call Start w)))).
    split; [apply calls_issued_prefix | reflexivity].
Qed.

Lemma main_issued_at (w : W) (k : nat) (c : Call) :
  issued (main w) !! k = Some c →
  k = 0 ∧ c = Start ∨
  ∃ j, k = S j ∧ (body_steps !! j = Some c ∨ c = Stop).
Proof.
  destruct (main_issued_shape w) as [E | (p & P & E)]; rewrite E.
  - destruct k as [|k]; [|discriminate]. intros [= <-]. now left.
  - destruct k as [|j]; [intros [= <-]; now left|].
    cbn [lookup list_lookup]. intros L. right. exists j. split; [reflexivity|].
    apply lookup_app_Some in L as [L | [_ L]].
    + left. exact (prefix_lookup_Some _ _ _ _ L P).
    + right. destruct (j - length p) as [|n]; [|discriminate].
      now injection L.
Qed.

(** C9 (amended). The script consumes no environment variable and no
    configuration of its own.  Whatever the browser capability does, every
    call issued is one of a fixed list in which the address, the two
    heading texts, the login label and the two output paths are literals;
    at each position two executions issue the same call with the same
    arguments, until one of them leaves the [with] block; and they issue
    the same calls throughout and end the same way when the capability
    treats their two worlds alike. *)
Theorem script_consumes_no_configuration (w1 w2 : W) :
  (∀ c, c ∈ issued (main w1) → c ∈ all_calls) ∧
  (∀ k c1 c2,
     issued (main w1) !! k = Some c1 → issued (main w2) !! k = Some c2 →
     c1 = c2 ∨ c1 = Stop ∨ c2 = Stop) ∧
  (∀ rel : W → W → Prop,
     (∀ c u1 u2, rel u1 u2 →
        (perform c u1).1 = (perform c u2).1 ∧
        rel (perform c u1).2 (perform c u2).2) →
     rel w1 w2 →
     issued (main w1) = issued (main w2) ∧
     result (main w1) = result (main w2)).
Proof.
  split; [|split].
  - intros c I. exact (main_issued w1 c I).
  - intros k c1 c2 L1 L2.
    destruct (main_issued_at _ _ _ L1) as [[-> ->] | (j & -> & B1)].
    + destruct (main_issued_at _ _ _ L2) as [[_ ->] | (j & [=] & _)].
      now left.
    + destruct (main_issued_at _ _ _ L2) as [[[=] _] | (j' & [= <-] & B2)].
      destruct B1 as [B1 | ->]; [|auto]. destruct B2 as [B2 | ->]; [|auto].
      left. congruence.
  - intros rel Hrel Hw.
    destruct (main_alike rel Hrel w1 w2 Hw) as (Hr & Hi & _). auto.
Qed.

End Configuration.

(** ** For the Playwright model *)

(** One statement of a block at a time. *)
Ltac returns L :=
  rewrite (calls_cons_returns _ _ _ _ L); cbn [result issued final].
Ltac raises L :=
  rewrite (calls_cons_raises _ _ _ _ _ L); cbn [result issued final].

Section Model.
Context `{Engine}.

Lemma two_paths : landing_png ≠ login_png.
Proof. discriminate. Qed.

Lemma png_not_empty (t : Target) (v : View) : png t v ≠ [].
Proof. discriminate. Qed.

Lemma png_is_png (t : Target) (v : View) : png_signature `prefix_of` png t v.
Proof. now exists (pixels t v). Qed.

(** The calls on the page leave the driver, the browser, the page
    handle, the target and the environment variables alone. *)
Lemma page_call_frame (c : Call) (w : World) :
  on_the_page c = true →
  let w' := (perform c w).2 in
  target w' = target w ∧ environ w' = environ w ∧ driver w' = driver w ∧
  browser w' = browser w ∧ page w' = page w ∧ released w' = released w.
Proof.
  destruct w as [t f e d b p v r].
  destruct c; try discriminate; intros _; cbn; unfold on_page;
    destruct p; cbn; auto 10;
    match goal with
    | |- context [match ?x with _ => _ end] => destruct x; cbn; auto 10
    end.
Qed.

Lemma page_calls_frame (cs : list Call) (w : World) :
  forallb on_the_page cs = true →
  let w' := final (calls cs w) in
  target w' = target w ∧ environ w' = environ w ∧ driver w' = driver w ∧
  browser w' = browser w ∧ page w' = page w ∧ released w' = released w.
Proof.
  revert w. induction cs as [|c cs IH]; intros w Hcs; [cbn; auto 10|].
  cbn in Hcs. apply andb_prop in Hcs as [Hc Hcs].
  pose proof (page_call_frame c w Hc) as Fc. cbn zeta in Fc.
  destruct (perform c w) as [[e|] w1] eqn:E.
  - rewrite (calls_cons_raises _ _ _ _ _ E). exact Fc.
  - rewrite (calls_cons_returns _ _ _ _ E). cbn [final].
    pose proof (IH w1 Hcs) as Fcs. cbn zeta in Fcs. cbn [snd] in Fc.
    cbn zeta. intuition congruence.
Qed.

Lemma run_frame (w : World) :
  let w' := final (run w) in
  target w' = target w ∧ environ w' = environ w ∧ driver w' = driver w ∧
  browser w' = browser w ∧ page w' = page w ∧ released w' = released w.
Proof. rewrite run_calls. now apply page_calls_frame. Qed.

(** A fresh process, step by step: [Start], [Launch] and [NewPage]
    bring the world to [opened]; then [run]; then [BrowserClose] if [run]
    returned; then [Stop] in both cases. *)
Lemma python_boot (t : Target) (files : gmap string (list byte))
    (env : gmap string string) :
  let rr := run (opened t files env) in
  python (boot t files env) =
    match result rr with
    | inl e =>
        mkRun (inl e) ([Start; Launch true; NewPage] ++ issued rr ++ [Stop])
              (set_driver false (release_all (final rr)))
    | inr _ =>
        mkRun (inr tt)
              ([Start; Launch true; NewPage] ++ issued rr ++ [BrowserClose; Stop])
              (set_driver false (release_all (release_all (final rr))))
    end.
Proof.
  intros rr. change (python (boot t files env)) with (main (boot t files env)).
  rewrite main_unfold. unfold with_.
  rewrite (call_returns Start _ (set_driver true (boot t files env)))
    by reflexivity.
  cbn [result issued final]. unfold body_steps.
  change ([Launch true; NewPage] ++ six_steps ++ [BrowserClose])
    with (Launch true :: NewPage :: (six_steps ++ [BrowserClose])).
  rewrite (calls_cons_returns (Launch true) _ _
             (set_browser Live (set_driver true (boot t files env))))
    by reflexivity.
  rewrite (calls_cons_returns NewPage _ _ (opened t files env))
    by reflexivity.
  cbn [result issued final].
  rewrite calls_app. unfold bind. rewrite <- run_calls. fold rr.
  destruct (result rr) as [e|[]]; cbn [result issued final].
  - rewrite (call_returns Stop _ (set_driver false (release_all (final rr))))
      by reflexivity.
    reflexivity.
  - rewrite calls_single.
    rewrite (call_returns BrowserClose _ (release_all (final rr)))
      by reflexivity.
    cbn [result issued final].
    rewrite (call_returns Stop _
               (set_driver false (release_all (release_all (final rr)))))
      by reflexivity.
    cbn [result issued final]. f_equal. cbn [app].
    now rewrite <- app_assoc.
Qed.

(** Each call on an open page, case by case. *)
Lemma goto_returns (w : World) (url : string) (v : View) :
  page w = Live → respond (target w) url = Some v →
  perform (Goto url) w = (None, set_view v w).
Proof.
  intros P E. unfold perform, playwright, pw_perform, on_page.
  now rewrite P, E.
Qed.

Lemma goto_raises (w : World) (url : string) :
  page w = Live → respond (target w) url = None →
  perform (Goto url) w = (Some NavigationError, w).
Proof.
  intros P E. unfold perform, playwright, pw_perform, on_page.
  now rewrite P, E.
Qed.

(** The wait returns exactly when the locator stands for one visible
    element; otherwise it fails, with the strict-mode error when the
    locator stands for several elements and with a timeout when not. *)
Lemma to_be_visible_single (l : Locator) (v : View) :
  is_Some (single_visible l v) → to_be_visible l v = None.
Proof.
  unfold single_visible, to_be_visible. intros [e E].
  destruct (resolve l v) as [|e1 [|e2 rest]]; try discriminate.
  now destruct (el_visible e1).
Qed.

Lemma to_be_visible_fails (l : Locator) (v : View) :
  single_visible l v = None →
  to_be_visible l v =
    Some match resolve l v with
         | _ :: _ :: _ => ElementResolutionError
         | _ => VisibilityTimeout
         end.
Proof.
  unfold single_visible, to_be_visible.
  destruct (resolve l v) as [|e1 [|e2 rest]]; try reflexivity.
  now destruct (el_visible e1).
Qed.

Lemma to_be_visible_returns (w : World) (l : Locator) :
  page w = Live → is_Some (single_visible l (view w)) →
  perform (ToBeVisible l) w = (None, w).
Proof.
  intros P E. unfold perform, playwright, pw_perform, on_page.
  now rewrite P, (to_be_visible_single _ _ E).
Qed.

Lemma to_be_visible_raises (w : World) (l : Locator) (e : Exn) :
  page w = Live → to_be_visible l (view w) = Some e →
  perform (ToBeVisible l) w = (Some e, w).
Proof.
  intros P E. unfold perform, playwright, pw_perform, on_page.
  now rewrite P, E.
Qed.

Lemma screenshot_returns (w : World) (path : string) :
  page w = Live →
  perform (Screenshot path) w =
    (None, set_fs (<[path := png (target w) (view w)]> (fs w)) w).
Proof.
  intros P. unfold perform, playwright, pw_perform, on_page. now rewrite P.
Qed.

Lemma click_returns (w : World) (l : Locator) (e : Element) :
  page w = Live → single_visible l (view w) = Some e →
  perform (Click l) w =
    (None, set_view (activate (target w) (view w) e) w).
Proof.
  intros P E. unfold perform, playwright, pw_perform, on_page.
  now rewrite P, E.
Qed.

Lemma click_raises (w : World) (l : Locator) :
  page w = Live → single_visible l (view w) = None →
  perform (Click l) w = (Some ElementResolutionError, w).
Proof.
  intros P E. unfold perform, playwright, pw_perform, on_page.
  now rewrite P, E.
Qed.

(** The four ways [run] can go that the contract speaks of. *)
Lemma run_unreachable (t : Target) files env :
  respond t landing_url = None →
  run (opened t files env) =
    mkRun (inl NavigationError) [Goto landing_url] (opened t files env).
Proof.
  intros E. rewrite run_calls. unfold six_steps.
  raises (goto_raises (opened t files env) landing_url eq_refl E).
  reflexivity.
Qed.

Lemma run_heading_missing (t : Target) files env (v : View) (e : Exn) :
  respond t landing_url = Some v →
  to_be_visible landing_heading v = Some e →
  run (opened t files env) =
    mkRun (inl e) (take 2 six_steps)
          (mkWorld t files env true Live Live v []).
Proof.
  intros E1 E2. rewrite run_calls. unfold six_steps.
  returns (goto_returns (opened t files env) landing_url v eq_refl E1).
  raises (to_be_visible_raises (set_view v (opened t files env))
            landing_heading e eq_refl E2).
  reflexivity.
Qed.

Lemma run_login_unresolved (t : Target) files env (v : View) :
  respond t landing_url = Some v →
  is_Some (single_visible landing_heading v) →
  single_visible login_button v = None →
  run (opened t files env) =
    mkRun (inl ElementResolutionError) (take 4 six_steps)
          (mkWorld t (<[landing_png := png t v]> files) env true Live Live v []).
Proof.
  intros E1 E2 E3. rewrite run_calls. unfold six_steps.
  returns (goto_returns (opened t files env) landing_url v eq_refl E1).
  returns (to_be_visible_returns (set_view v (opened t files env))
             landing_heading eq_refl E2).
  returns (screenshot_returns (set_view v (opened t files env))
             landing_png eq_refl).
  raises (click_raises
            (mkWorld t (<[landing_png := png t v]> files) env true Live Live
               v [])
            login_button eq_refl E3).
  reflexivity.
Qed.

Lemma run_through (t : Target) files env (v : View) (b : Element) :
  respond t landing_url = Some v →
  is_Some (single_visible landing_heading v) →
  single_visible login_button v = Some b →
  is_Some (single_visible login_heading (activate t v b)) →
  run (opened t files env) =
    mkRun (inr tt) six_steps
          (mkWorld t
             (<[login_png := png t (activate t v b)]>
                (<[landing_png := png t v]> files))
             env true Live Live (activate t v b) []).
Proof.
  intros E1 E2 E3 E4. rewrite run_calls. unfold six_steps.
  returns (goto_returns (opened t files env) landing_url v eq_refl E1).
  returns (to_be_visible_returns (set_view v (opened t files env))
             landing_heading eq_refl E2).
  returns (screenshot_returns (set_view v (opened t files env))
             landing_png eq_refl).
  returns (click_returns
             (mkWorld t (<[landing_png := png t v]> files) env true Live Live
                v [])
             login_button b eq_refl E3).
  returns (to_be_visible_returns
             (mkWorld t (<[landing_png := png t v]> files) env true Live Live
                (activate t v b) [])
             login_heading eq_refl E4).
  returns (screenshot_returns
             (mkWorld t (<[landing_png := png t v]> files) env true Live Live
                (activate t v b) [])
             login_png eq_refl).
  reflexivity.
Qed.

(** The whole script against a correctly behaving target. *)
Lemma python_through (t : Target) files env (v : View) (b : Element) :
  respond t landing_url = Some v →
  is_Some (single_visible landing_heading v) →
  single_visible login_button v = Some b →
  is_Some (single_visible login_heading (activate t v b)) →
  python (boot t files env) =
    mkRun (inr tt)
          ([Start; Launch true; NewPage] ++ six_steps ++ [BrowserClose; Stop])
          (mkWorld t
             (<[login_png := png t (activate t v b)]>
                (<[landing_png := png t v]> files))
             env false Released Released (activate t v b)
             [PageHandle; BrowserProcess]).
Proof.
  intros E1 E2 E3 E4.
  rewrite python_boot, (run_through _ _ _ _ _ E1 E2 E3 E4). reflexivity.
Qed.

(** A locator that stands for no element, or for several, gives no
    element to act on. *)
Lemma single_visible_counts (l : Locator) (v : View) :
  length (resolve l v) ≠ 1 → single_visible l v = None.
Proof.
  unfold single_visible. destruct (resolve l v) as [|e [|e' rest]]; cbn;
    [reflexivity | intros N; now destruct N | reflexivity].
Qed.


(** Calls treat alike two worlds that differ in files and environment
    variables only. *)
Lemma perform_same_session (c : Call) (w1 w2 : World) :
  same_session w1 w2 →
  (perform c w1).1 = (perform c w2).1 ∧
  same_session (perform c w1).2 (perform c w2).2.
Proof.
  destruct w1 as [t1 f1 e1 d1 b1 p1 v1 r1], w2 as [t2 f2 e2 d2 b2 p2 v2 r2].
  unfold same_session. cbn. intros (-> & -> & -> & -> & -> & ->).
  destruct c, d2, b2, p2; cbn; auto 10;
    match goal with
    | |- context [match ?x with _ => _ end] => destruct x; cbn; auto 10
    end.
Qed.

(** C2. Against a correctly behaving target the script ends with status
    0 and has written two files, one at each of the two fixed paths, each
    a non-empty PNG; the paths differ and no other file is touched. *)
Theorem correct_target_two_screenshots_exit_0 (t : Target)
    (files : gmap string (list byte)) (env : gmap string string) :
  well_behaved t →
  let r := python (boot t files env) in
  exit_code r = 0%Z ∧
  List.filter writes_file (issued r) =
    [Screenshot landing_png; Screenshot login_png] ∧
  landing_png ≠ login_png ∧
  ∃ img1 img2,
    fs (final r) = <[login_png := img2]> (<[landing_png := img1]> files) ∧
    img1 ≠ [] ∧ img2 ≠ [] ∧
    png_signature `prefix_of` img1 ∧ png_signature `prefix_of` img2.
Proof.
  intros (v & b & E1 & E2 & E3 & E4) r. subst r.
  rewrite python_boot, (run_through _ _ _ _ _ E1 E2 E3 E4). cbn.
  repeat split; try discriminate.
  exists (png t v), (png t (activate t v b)).
  repeat split; try discriminate; apply png_is_png.
Qed.


(** C4 (amended). When the login locator stands for no control or for
    more than one at the click, the script fails with an
    ElementResolutionError; the landing screenshot has been written and
    nothing else: the file at the login path is as it was before. *)
Theorem login_unresolved_fails_between_screenshots (t : Target)
    (files : gmap string (list byte)) (env : gmap string string) (v : View) :
  respond t landing_url = Some v →
  is_Some (single_visible landing_heading v) →
  length (resolve login_button v) ≠ 1 →
  let r := python (boot t files env) in
  result r = inl ElementResolutionError ∧
  issued r =
    [Start; Launch true; NewPage; Goto landing_url;
     ToBeVisible landing_heading; Screenshot landing_png;
     Click login_button; Stop] ∧
  fs (final r) = <[landing_png := png t v]> files ∧
  fs (final r) !! landing_png = Some (png t v) ∧
  fs (final r) !! login_png = files !! login_png.
Proof.
  intros E1 E2 N r. subst r.
  pose proof (single_visible_counts _ _ N) as E3.
  rewrite python_boot, (run_login_unresolved _ _ _ _ E1 E2 E3). cbn.
  repeat split.
  - apply lookup_insert_eq.
  - apply lookup_insert_ne, two_paths.
Qed.

(** C5. When nothing answers at the address, the script fails at
    [page.goto] with a NavigationError: no later step is issued and no
    file is written. *)
Theorem unreachable_fails_at_navigation (t : Target)
    (files : gmap string (list byte)) (env : gmap string string) :
  respond t landing_url = None →
  let r := python (boot t files env) in
  result r = inl NavigationError ∧
  issued r = [Start; Launch true; NewPage; Goto landing_url; Stop] ∧
  List.filter writes_file (issued r) = [] ∧
  fs (final r) = files ∧
  exit_code r = 1%Z.
Proof.
  intros E r. subst r. rewrite python_boot, (run_unreachable _ _ _ E).
  cbn. auto.
Qed.

(** C7. Whether [run] returns or raises, when the script ends the page
    handle and the browser process have each been released exactly once,
    the driver is stopped and [Stop] was the last call; until [run] ends
    both are held and nothing has been released. *)
Theorem teardown_once_on_every_path (t : Target)
    (files : gmap string (list byte)) (env : gmap string string) :
  let during := final (run (opened t files env)) in
  let r := python (boot t files env) in
  (page during = Live ∧ browser during = Live ∧ released during = []) ∧
  released (final r) = [PageHandle; BrowserProcess] ∧
  page (final r) = Released ∧
  browser (final r) = Released ∧
  driver (final r) = false ∧
  last (issued r) = Some Stop.
Proof.
  intros during r. subst during r. rewrite python_boot.
  pose proof (run_frame (opened t files env)) as F. cbn zeta in F.
  destruct (run (opened t files env)) as [res i wf]. cbn [final result issued] in *.
  destruct wf as [t' f' e' d' b' p' v' r']. cbn in F.
  destruct F as (-> & -> & -> & -> & -> & ->).
  destruct res as [e|[]]; cbn [result issued final];
    (split; [now repeat split|]); repeat split.
  - now rewrite app_assoc, last_snoc.
  - change [BrowserClose; Stop] with ([BrowserClose] ++ [Stop]).
    now rewrite !app_assoc, last_snoc.
Qed.

(** C8. Two runs in succession against correctly behaving targets: both
    end with status 0 and issue the same calls; the files after the
    second run are those a single run of it would have left, so nothing
    accumulates; they are the files after the first run when the target
    is the same; the same paths exist after either run, the two fixed
    ones and those there before; files at other paths keep their
    content. *)
Theorem second_run_overwrites (t1 t2 : Target)
    (files : gmap string (list byte)) (env : gmap string string) :
  well_behaved t1 →
  well_behaved t2 →
  let r1 := python (boot t1 files env) in
  let r2 := python (boot t2 (fs (final r1)) env) in
  exit_code r1 = 0%Z ∧ exit_code r2 = 0%Z ∧
  issued r2 = issued r1 ∧
  fs (final r2) = fs (final (python (boot t2 files env))) ∧
  (t2 = t1 → fs (final r2) = fs (final r1)) ∧
  dom (fs (final r2)) = dom (fs (final r1)) ∧
  dom (fs (final r1)) = {[landing_png; login_png]} ∪ dom files ∧
  (∀ p, p ≠ landing_png → p ≠ login_png →
        fs (final r2) !! p = files !! p).
Proof.
  intros (v1 & b1 & A1 & A2 & A3 & A4) (v2 & b2 & B1 & B2 & B3 & B4) r1 r2.
  subst r1 r2.
  rewrite (python_through t1 _ _ _ _ A1 A2 A3 A4).
  cbn [final fs result issued].
  rewrite !(python_through t2 _ _ _ _ B1 B2 B3 B4).
  unfold exit_code. cbn [final fs result issued].
  assert (∀ (x y x' y' : list byte),
    <[login_png := y']> (<[landing_png := x']>
      (<[login_png := y]> (<[landing_png := x]> files))) =
    <[login_png := y']> (<[landing_png := x']> files)) as Over.
  { intros x y x' y'. apply map_eq. intros p.
    rewrite !lookup_insert. repeat case_decide; congruence. }
  repeat split; try reflexivity.
  - apply Over.
  - intros ->. rewrite B1 in A1. injection A1 as ->.
    rewrite B3 in A3. injection A3 as ->. apply Over.
  - now rewrite Over, !dom_insert_L.
  - rewrite !dom_insert_L. apply set_eq. intros p.
    rewrite !elem_of_union, !elem_of_singleton. tauto.
  - intros p P1 P2. rewrite Over.
    rewrite lookup_insert_ne by now apply not_eq_sym.
    now rewrite lookup_insert_ne by now apply not_eq_sym.
Qed.

(** In a session in which the host does its part, no call consults the
    files or the environment variables: two executions against the same
    target that start from different files and different environment
    variables issue the same calls and end the same way. *)
Lemma persisted_state_does_not_steer (t : Target)
    (files1 files2 : gmap string (list byte))
    (env1 env2 : gmap string string) :
  let r1 := python (boot t files1 env1) in
  let r2 := python (boot t files2 env2) in
  issued r1 = issued r2 ∧
  result r1 = result r2 ∧
  same_session (final r1) (final r2) ∧
  (∀ c, c ∈ issued r1 → c ∈ all_calls).
Proof.
  intros r1 r2. subst r1 r2.
  change (python (boot t files1 env1)) with (main (boot t files1 env1)).
  change (python (boot t files2 env2)) with (main (boot t files2 env2)).
  destruct (main_alike same_session perform_same_session
              (boot t files1 env1) (boot t files2 env2)) as (Hr & Hi & Hf).
  { now repeat split. }
  split; [exact Hi|]. split; [exact Hr|]. split; [exact Hf|].
  intros c Hc. apply main_issued in Hc. exact Hc.
Qed.

End Model.

(** ** The theorems at sample targets *)
Import Sample.

Section AtSamples.
#[local] Existing Instance ascii_text.

(** The name test at work: the default is a substring test that ignores
    letter case; [exact] asks for the very string. *)
Example login_label_matches_longer_name :
  name_matches (get_by_role "button" "Login") "Login with Google" = true.
Proof. reflexivity. Qed.

Example login_label_matches_other_case :
  name_matches (get_by_role "button" "Login") "LOGIN" = true.
Proof. reflexivity. Qed.

Example login_label_needs_the_word :
  name_matches (get_by_role "button" "Login") "Sign in" = false.
Proof. reflexivity. Qed.

Example exact_name_rejects_longer_name :
  name_matches {| loc_role := "button"; loc_name := "Login"; loc_exact := true |}
               "Login with Google" = false.
Proof. reflexivity. Qed.


Lemma site_ok_well_behaved : well_behaved site_ok.
Proof.
  exists [hero; login], login.
  repeat split; vm_compute; eauto.
Qed.

Lemma run_on_site_ok_issues_six_steps :
  result (run (opened site_ok ∅ ∅)) = inr tt ∧
  issued (run (opened site_ok ∅ ∅)) = six_steps.
Proof.
  assert (result (run (opened site_ok ∅ ∅)) = inr tt) as R
    by (vm_compute; reflexivity).
  split; [exact R|].
  exact (proj1 (run_performs_six_steps_unless_one_fails
                  (opened site_ok ∅ ∅)) tt R).
Defined.

(** C1 as stated fails: on an open page, when nothing answers at the
    address, [run] performs one step, not six. *)
Lemma run_stops_at_failed_navigation :
  page (opened site_down ∅ ∅) = Live ∧
  issued (run (opened site_down ∅ ∅)) = [Goto landing_url] ∧
  issued (run (opened site_down ∅ ∅)) ≠ six_steps.
Proof.
  split; [reflexivity|].
  rewrite (run_unreachable site_down ∅ ∅ eq_refl). cbn [issued].
  split; [reflexivity | discriminate].
Qed.


Lemma import_of_the_file_does_nothing :
  "verify_landing_page_flow" ≠ "__main__" ∧
  toplevel "verify_landing_page_flow" (boot site_ok ∅ ∅) =
    mkRun (inr tt) [] (boot site_ok ∅ ∅).
Proof.
  assert ("verify_landing_page_flow" ≠ "__main__") as N by discriminate.
  split; [exact N|].
  exact (proj1 (import_has_no_effect "verify_landing_page_flow"
                  (boot site_ok ∅ ∅) N)).
Defined.

Lemma site_ok_two_screenshots_exit_0 :
  well_behaved site_ok ∧
  let r := python (boot site_ok ∅ ∅) in
  exit_code r = 0%Z ∧
  List.filter writes_file (issued r) =
    [Screenshot landing_png; Screenshot login_png] ∧
  landing_png ≠ login_png ∧
  ∃ img1 img2,
    fs (final r) = <[login_png := img2]> (<[landing_png := img1]> ∅) ∧
    img1 ≠ [] ∧ img2 ≠ [] ∧
    png_signature `prefix_of` img1 ∧ png_signature `prefix_of` img2.
Proof.
  split; [exact site_ok_well_behaved|].
  exact (correct_target_two_screenshots_exit_0 site_ok ∅ ∅
           site_ok_well_behaved).
Defined.

(** C2 as stated fails: a target on which the landing heading is
    present, there is exactly one login control and the second heading
    appears after the click, but on which a second heading also contains
    the landing text: the script ends with status 1 at the first wait and
    writes no file. *)
Lemma present_headings_can_still_fail :
  behaves_as_claimed site_two_heroes ∧
  exit_code (python (boot site_two_heroes ∅ ∅)) = 1%Z ∧
  exit_code (python (boot site_two_heroes ∅ ∅)) ≠ 0%Z ∧
  fs (final (python (boot site_two_heroes ∅ ∅))) = ∅.
Proof.
  split; [|split; [|split]].
  - exists [hero; hero_longer; login], login.
    split; [reflexivity|]. split.
    { exists hero. repeat split. left. }
    split; [reflexivity|]. split; [reflexivity|].
    exists welcome. repeat split. left.
  - vm_compute. reflexivity.
  - vm_compute. discriminate.
  - assert (to_be_visible landing_heading [hero; hero_longer; login] =
            Some ElementResolutionError) as E by (vm_compute; reflexivity).
    rewrite python_boot.
    rewrite (run_heading_missing site_two_heroes ∅ ∅ _ _ eq_refl E).
    reflexivity.
Qed.

(** C9 as stated fails: on a machine with Chromium in the default
    browsers directory, two executions against the same target and the
    same files that differ only in the environment variable
    PLAYWRIGHT_BROWSERS_PATH do not issue the same calls: with the
    variable unset every call of the file is issued, with the variable
    set the launch fails and the exit follows. *)
Lemma browsers_path_changes_the_calls :
  chromium_in (default_install plain_env) =
    chromium_in (default_install moved_env) ∧
  session (default_install plain_env) = boot site_ok ∅ plain_env ∧
  session (default_install moved_env) = boot site_ok ∅ moved_env ∧
  issued (main (default_install plain_env)) = Start :: body_steps ++ [Stop] ∧
  issued (main (default_install moved_env)) = [Start; Launch true; Stop] ∧
  result (main (default_install moved_env)) = inl LaunchError ∧
  issued (main (default_install plain_env)) ≠
    issued (main (default_install moved_env)).
Proof.
  assert (issued (main (default_install plain_env)) =
            Start :: body_steps ++ [Stop]) as E1 by (vm_compute; reflexivity).
  assert (issued (main (default_install moved_env)) =
            [Start; Launch true; Stop]) as E2 by (vm_compute; reflexivity).
  split; [reflexivity|]. split; [reflexivity|]. split; [reflexivity|].
  split; [exact E1|]. split; [exact E2|]. split.
  - vm_compute. reflexivity.
  - rewrite E1, E2. discriminate.
Qed.

Lemma alike_sessions_issue_the_same_calls :
  same_session (boot site_ok ∅ plain_env)
               (boot site_ok {[ login_png := stale ]} moved_env) ∧
  issued (main (boot site_ok ∅ plain_env)) =
    issued (main (boot site_ok {[ login_png := stale ]} moved_env)) ∧
  result (main (boot site_ok ∅ plain_env)) =
    result (main (boot site_ok {[ login_png := stale ]} moved_env)).
Proof.
  assert (same_session (boot site_ok ∅ plain_env)
            (boot site_ok {[ login_png := stale ]} moved_env)) as S
    by (now repeat split).
  split; [exact S|].
  exact (proj2 (proj2 (script_consumes_no_configuration
                         (boot site_ok ∅ plain_env)
                         (boot site_ok {[ login_png := stale ]} moved_env)))
               same_session perform_same_session S).
Defined.





Lemma sites_without_single_login_fail_between_screenshots :
  (respond site_no_login landing_url = Some [hero] ∧
   is_Some (single_visible landing_heading [hero]) ∧
   length (resolve login_button [hero]) ≠ 1 ∧
   let r := python (boot site_no_login ∅ ∅) in
   result r = inl ElementResolutionError ∧
   fs (final r) !! landing_png = Some (png site_no_login [hero]) ∧
   fs (final r) !! login_png = None) ∧
  (respond site_two_logins landing_url = Some [hero; login; login_google] ∧
   is_Some (single_visible landing_heading [hero; login; login_google]) ∧
   length (resolve login_button [hero; login; login_google]) ≠ 1 ∧
   let r := python (boot site_two_logins ∅ ∅) in
   result r = inl ElementResolutionError ∧
   fs (final r) !! landing_png =
     Some (png site_two_logins [hero; login; login_google]) ∧
   fs (final r) !! login_png = None).
Proof.
  assert (is_Some (single_visible landing_heading [hero])) as H1
    by (vm_compute; eauto).
  assert (length (resolve login_button [hero]) ≠ 1) as N1
    by (vm_compute; discriminate).
  assert (is_Some (single_visible landing_heading [hero; login; login_google]))
    as H2 by (vm_compute; eauto).
  assert (length (resolve login_button [hero; login; login_google]) ≠ 1) as N2
    by (vm_compute; discriminate).
  split; (split; [reflexivity|]).
  - split; [exact H1|]. split; [exact N1|].
    destruct (login_unresolved_fails_between_screenshots site_no_login ∅ ∅
                [hero] eq_refl H1 N1) as (R & _ & _ & L1 & L2).
    split; [exact R|]. split; [exact L1|]. exact L2.
  - split; [exact H2|]. split; [exact N2|].
    destruct (login_unresolved_fails_between_screenshots site_two_logins ∅ ∅
                [hero; login; login_google] eq_refl H2 N2)
      as (R & _ & _ & L1 & L2).
    split; [exact R|]. split; [exact L1|]. exact L2.
Defined.

(** C4 as stated fails: when a login screenshot is on disk from an
    earlier run and the page has no login control, the script fails with
    an ElementResolutionError and the second screenshot file exists. *)
Lemma stale_login_screenshot_survives :
  respond site_no_login landing_url = Some [hero] ∧
  length (resolve login_button [hero]) = 0 ∧
  let r := python (boot site_no_login {[ login_png := stale ]} ∅) in
  result r = inl ElementResolutionError ∧
  fs (final r) !! login_png = Some stale ∧
  fs (final r) !! login_png ≠ None.
Proof.
  split; [reflexivity|]. split; [reflexivity|].
  assert (is_Some (single_visible landing_heading [hero])) as H1
    by (vm_compute; eauto).
  assert (length (resolve login_button [hero]) ≠ 1) as N1
    by (vm_compute; discriminate).
  destruct (login_unresolved_fails_between_screenshots site_no_login
              {[ login_png := stale ]} ∅ [hero] eq_refl H1 N1)
    as (R & _ & _ & _ & L).
  cbn zeta. rewrite L, lookup_singleton_eq.
  split; [exact R|]. split; [reflexivity | discriminate].
Qed.

Lemma site_down_fails_at_navigation :
  respond site_down landing_url = None ∧
  let r := python (boot site_down ∅ ∅) in
  result r = inl NavigationError ∧
  issued r = [Start; Launch true; NewPage; Goto landing_url; Stop] ∧
  List.filter writes_file (issued r) = [] ∧
  fs (final r) = ∅ ∧
  exit_code r = 1%Z.
Proof.
  split; [reflexivity|].
  exact (unreachable_fails_at_navigation site_down ∅ ∅ eq_refl).
Defined.

Lemma site_ok_twice :
  well_behaved site_ok ∧
  let r1 := python (boot site_ok ∅ ∅) in
  let r2 := python (boot site_ok (fs (final r1)) ∅) in
  exit_code r2 = 0%Z ∧ fs (final r2) = fs (final r1).
Proof.
  split; [exact site_ok_well_behaved|].
  destruct (second_run_overwrites site_ok site_ok ∅ ∅
              site_ok_well_behaved site_ok_well_behaved)
    as (_ & E2 & _ & _ & Same & _).
  split; [exact E2 | exact (Same eq_refl)].
Defined.

End AtSamples.

(** * Further properties of the script *)

Section Further.
Context `{Engine}.

(** ** The remaining failure: the second heading does not come up *)

Lemma run_welcome_missing (t : Target) files env (v : View) (b : Element)
    (e : Exn) :
  respond t landing_url = Some v →
  is_Some (single_visible landing_heading v) →
  single_visible login_button v = Some b →
  to_be_visible login_heading (activate t v b) = Some e →
  run (opened t files env) =
    mkRun (inl e) (take 5 six_steps)
          (mkWorld t (<[landing_png := png t v]> files) env true Live Live
             (activate t v b) []).
Proof.
  intros E1 E2 E3 E4. rewrite run_calls. unfold six_steps.
  returns (goto_returns (opened t files env) landing_url v eq_refl E1).
  returns (to_be_visible_returns (set_view v (opened t files env))
             landing_heading eq_refl E2).
  returns (screenshot_returns (set_view v (opened t files env))
             landing_png eq_refl).
  returns (click_returns
             (mkWorld t (<[landing_png := png t v]> files) env true Live Live
                v [])
             login_button b eq_refl E3).
  raises (to_be_visible_raises
            (mkWorld t (<[landing_png := png t v]> files) env true Live Live
               (activate t v b) [])
            login_heading e eq_refl E4).
  reflexivity.
Qed.

(** X1. When the login control is clicked and the second heading does
    not come up as one visible heading, the script fails at the second
    wait, with a VisibilityTimeout unless the locator stands for several
    headings, which is the strict-mode error: the landing screenshot has
    been written, no login screenshot call is issued and the file at the
    login path is as it was. *)
Theorem welcome_missing_fails_after_click (t : Target)
    (files : gmap string (list byte)) (env : gmap string string)
    (v : View) (b : Element) :
  respond t landing_url = Some v →
  is_Some (single_visible landing_heading v) →
  single_visible login_button v = Some b →
  single_visible login_heading (activate t v b) = None →
  let r := python (boot t files env) in
  result r =
    inl match resolve login_heading (activate t v b) with
        | _ :: _ :: _ => ElementResolutionError
        | _ => VisibilityTimeout
        end ∧
  issued r =
    [Start; Launch true; NewPage; Goto landing_url;
     ToBeVisible landing_heading; Screenshot landing_png;
     Click login_button; ToBeVisible login_heading; Stop] ∧
  fs (final r) = <[landing_png := png t v]> files ∧
  fs (final r) !! login_png = files !! login_png ∧
  exit_code r = 1%Z.
Proof.
  intros E1 E2 E3 E4 r. subst r.
  rewrite python_boot,
    (run_welcome_missing _ _ _ _ _ _ E1 E2 E3 (to_be_visible_fails _ _ E4)).
  cbn. repeat split. apply lookup_insert_ne, two_paths.
Qed.

(** ** Every way the script can end *)

Lemma python_cases (t : Target) (files : gmap string (list byte))
    (env : gmap string string) :
  let r := python (boot t files env) in
  (respond t landing_url = None ∧ result r = inl NavigationError) ∨
  (∃ v e, respond t landing_url = Some v ∧
          single_visible landing_heading v = None ∧
          to_be_visible landing_heading v = Some e ∧
          result r = inl e) ∨
  (∃ v, respond t landing_url = Some v ∧
        is_Some (single_visible landing_heading v) ∧
        single_visible login_button v = None ∧
        result r = inl ElementResolutionError) ∨
  (∃ v b e, respond t landing_url = Some v ∧
            is_Some (single_visible landing_heading v) ∧
            single_visible login_button v = Some b ∧
            single_visible login_heading (activate t v b) = None ∧
            to_be_visible login_heading (activate t v b) = Some e ∧
            result r = inl e) ∨
  (well_behaved t ∧ result r = inr tt).
Proof.
  intros r. subst r. rewrite python_boot.
  destruct (respond t landing_url) as [v|] eqn:E1.
  2:{ left. split; [reflexivity|]. now rewrite (run_unreachable _ _ _ E1). }
  right. destruct (single_visible landing_heading v) as [h|] eqn:E2.
  2:{ left. pose proof (to_be_visible_fails _ _ E2) as F.
      eexists v, _. repeat split; try eassumption.
      now rewrite (run_heading_missing _ _ _ _ _ E1 F). }
  assert (is_Some (single_visible landing_heading v)) as S2 by (rewrite E2; eauto).
  right. destruct (single_visible login_button v) as [b|] eqn:E3.
  2:{ left. exists v. repeat split; try assumption.
      now rewrite (run_login_unresolved _ _ _ _ E1 S2 E3). }
  right.
  destruct (single_visible login_heading (activate t v b)) as [h'|] eqn:E4.
  2:{ left. pose proof (to_be_visible_fails _ _ E4) as F.
      eexists v, b, _. repeat split; try eassumption.
      now rewrite (run_welcome_missing _ _ _ _ _ _ E1 S2 E3 F). }
  assert (is_Some (single_visible login_heading (activate t v b))) as S4
    by (rewrite E4; eauto).
  right. split.
  - exists v, b. auto.
  - now rewrite (run_through _ _ _ _ _ E1 S2 E3 S4).
Qed.

(** X2. The script never passes on a target that does not behave: when
    it ends with status 0, the address answered, the landing locator
    stood for one visible heading, the login locator for one visible
    control, and the second heading was visible after the click. *)
Theorem exit_0_only_if_well_behaved (t : Target)
    (files : gmap string (list byte)) (env : gmap string string) :
  exit_code (python (boot t files env)) = 0%Z → well_behaved t.
Proof.
  unfold exit_code.
  destruct (python_cases t files env)
    as [(E1 & R) | [(v & e & E1 & E2 & F & R) | [(v & E1 & S2 & E3 & R)
       | [(v & b & e & E1 & S2 & E3 & E4 & F & R) | (Wb & R)]]]];
    rewrite R; try discriminate.
  intros _. exact Wb.
Qed.

(** X3. The kind of failure tells where to look.  A NavigationError:
    nothing answered at the address.  A VisibilityTimeout: the page came
    up and one of the two waits found no visible heading.  An
    ElementResolutionError: the page came up and a locator did not stand
    for one element, either a heading locator that stands for several
    or the login locator. *)
Theorem failure_kind_tells_the_step (t : Target)
    (files : gmap string (list byte)) (env : gmap string string) :
  let r := python (boot t files env) in
  (result r = inl NavigationError → respond t landing_url = None) ∧
  (result r = inl VisibilityTimeout →
     ∃ v, respond t landing_url = Some v ∧
          (single_visible landing_heading v = None ∨
           ∃ b, single_visible login_button v = Some b ∧
                single_visible login_heading (activate t v b) = None)) ∧
  (result r = inl ElementResolutionError →
     ∃ v, respond t landing_url = Some v ∧
          ((2 ≤ length (resolve landing_heading v))%nat ∨
           single_visible login_button v = None ∨
           ∃ b, single_visible login_button v = Some b ∧
                (2 ≤ length (resolve login_heading (activate t v b)))%nat)).
Proof.
  intros r. subst r.
  assert (∀ l v e, to_be_visible l v = Some e →
            e = VisibilityTimeout ∨
            e = ElementResolutionError ∧ (2 ≤ length (resolve l v))%nat)
    as Kinds.
  { intros l v e. unfold to_be_visible.
    destruct (resolve l v) as [|e1 [|e2 rest]].
    - intros [= <-]. now left.
    - destruct (el_visible e1); [discriminate|]. intros [= <-]. now left.
    - intros [= <-]. right. split; [reflexivity|]. cbn. lia. }
  destruct (python_cases t files env)
    as [(E1 & R) | [(v & e & E1 & E2 & F & R) | [(v & E1 & S2 & E3 & R)
       | [(v & b & e & E1 & S2 & E3 & E4 & F & R) | (Wb & R)]]]];
    rewrite R.
  - split; [intros _; exact E1|]. split; discriminate.
  - destruct (Kinds _ _ _ F) as [->|[-> N]]; (split; [|split]);
      try discriminate; intros _; exists v; auto.
  - split; [|split]; try discriminate. intros _. exists v. auto.
  - destruct (Kinds _ _ _ F) as [->|[-> N]]; (split; [|split]);
      try discriminate; intros _; exists v; (split; [exact E1|]).
    + right. exists b. auto.
    + right. right. exists b. auto.
  - split; [|split]; discriminate.
Qed.

(** ** What [run] leaves alone *)

Section Keeps.
Context {W : Type} `{Browser W} (keeps : W → W → Prop).
Hypothesis keeps_refl : ∀ w, keeps w w.
Hypothesis keeps_trans : ∀ w1 w2 w3, keeps w1 w2 → keeps w2 w3 → keeps w1 w3.

(** What every statement of a block keeps, the block keeps, however it
    ends. *)
Lemma calls_keep (cs : list Call) :
  (∀ c w, c ∈ cs → keeps w (perform c w).2) →
  ∀ w, keeps w (final (calls cs w)).
Proof.
  induction cs as [|c cs IH]; intros K w; [apply keeps_refl|].
  pose proof (K c w (list_elem_of_here _ _)) as Kc.
  destruct (perform c w) as [[e|] w'] eqn:E; cbn [snd] in Kc.
  - now rewrite (calls_cons_raises _ _ _ _ _ E).
  - rewrite (calls_cons_returns _ _ _ _ E). cbn [final].
    apply (keeps_trans _ w'); [exact Kc|].
    apply IH. intros c' w0 I. apply K. now right.
Qed.

End Keeps.

Lemma step_keeps_other_files (c : Call) (w : World) :
  c ∈ six_steps →
  (∀ p, p ≠ landing_png → p ≠ login_png →
        fs (perform c w).2 !! p = fs w !! p) ∧
  dom (fs w) ⊆ dom (fs (perform c w).2).
Proof.
  intros I. unfold six_steps in I. rewrite !elem_of_cons, elem_of_nil in I.
  unfold perform, playwright, pw_perform, on_page.
  destruct I as [->|[->|[->|[->|[->|[->|[]]]]]]];
    destruct (page w); cbn [snd fs set_fs set_view]; try (now split);
    try (destruct (respond _ _); cbn [snd fs set_fs set_view]; now split);
    try (destruct (single_visible _ _); cbn [snd fs set_fs set_view];
         now split);
    (split; [|apply dom_insert_subseteq]);
    intros p P1 P2; now apply lookup_insert_ne, not_eq_sym.
Qed.

(** X4. On any page, open or not, and however it ends, [run] changes no
    file other than the two screenshots, deletes no file, and leaves the
    environment variables as they are. *)
Theorem run_touches_only_its_two_files (w : World) :
  (∀ p, p ≠ landing_png → p ≠ login_png →
        fs (final (run w)) !! p = fs w !! p) ∧
  dom (fs w) ⊆ dom (fs (final (run w))) ∧
  environ (final (run w)) = environ w.
Proof.
  pose proof (run_frame w) as F. cbn zeta in F.
  destruct F as (_ & Fe & _).
  rewrite run_calls in *.
  destruct (calls_keep
    (fun w1 w2 : World =>
       (∀ p, p ≠ landing_png → p ≠ login_png → fs w2 !! p = fs w1 !! p) ∧
       dom (fs w1) ⊆ dom (fs w2))) with (cs := six_steps) (w := w)
    as [K1 K2].
  - now intros w0.
  - intros w1 w2 w3 [A1 A2] [B1 B2]. split.
    + intros p P1 P2. now rewrite B1, A1.
    + now transitivity (dom (fs w2)).
  - intros c w0 I. now apply step_keeps_other_files.
  - auto.
Qed.

(** X5. On a run that succeeds, the landing screenshot is the image of
    the landing view, taken before the click, and the login screenshot is
    the image of the view the click brought up. *)
Theorem screenshots_show_before_and_after (t : Target)
    (files : gmap string (list byte)) (env : gmap string string)
    (v : View) (b : Element) :
  respond t landing_url = Some v →
  is_Some (single_visible landing_heading v) →
  single_visible login_button v = Some b →
  is_Some (single_visible login_heading (activate t v b)) →
  let r := python (boot t files env) in
  fs (final r) !! landing_png = Some (png t v) ∧
  fs (final r) !! login_png = Some (png t (activate t v b)) ∧
  view (final r) = activate t v b.
Proof.
  intros E1 E2 E3 E4 r. subst r.
  rewrite (python_through _ _ _ _ _ E1 E2 E3 E4). cbn [final fs view].
  split; [|split; [|reflexivity]].
  - rewrite lookup_insert_ne by (apply not_eq_sym, two_paths).
    apply lookup_insert_eq.
  - apply lookup_insert_eq.
Qed.

(** ** The main block, for every implementation of the browser calls *)

Lemma body_steps_NoDup : NoDup body_steps.
Proof. apply (bool_decide_unpack _). vm_compute. exact I. Qed.

(** A duplicate-free list is reached in full by an initial segment that
    holds its last element. *)
Lemma prefix_holding_last {A} (l k : list A) (x : A) :
  l `prefix_of` k ++ [x] → NoDup (k ++ [x]) → x ∈ l → l = k ++ [x].
Proof.
  intros [rest E] N I. induction rest as [|y rest _] using rev_ind.
  - now rewrite app_nil_r in E.
  - rewrite app_assoc in E. apply app_inj_tail in E as [-> ->].
    apply NoDup_app in N as (_ & D & _). destruct (D y).
    + rewrite elem_of_app. now left.
    + left.
Qed.

Section MainBlock.
Context {W : Type} `{Browser W}.

(** X6. Once [sync_playwright] has been entered, its exit is the last
    call of the main block whatever the body did; the body's outcome is
    the block's outcome unless the exit itself raises, and then the
    exit's exception is the one that is raised. *)
Theorem stop_is_always_last (w w' : W) :
  perform Start w = (None, w') →
  let body := calls body_steps w' in
  issued (main w) = Start :: issued body ++ [Stop] ∧
  last (issued (main w)) = Some Stop ∧
  ((perform Stop (final body)).1 = None → result (main w) = result body) ∧
  (∀ e, (perform Stop (final body)).1 = Some e → result (main w) = inl e).
Proof.
  intros E body. subst body. rewrite main_unfold. unfold with_.
  rewrite (call_returns _ _ _ E). cbn [result issued final].
  rewrite call_issued. split; [reflexivity|]. split.
  - change ([Start] ++ issued (calls body_steps w') ++ [Stop])
      with ((Start :: issued (calls body_steps w')) ++ [Stop]).
    apply last_snoc.
  - unfold call. destruct (perform Stop _) as [[e|] w'']; cbn; split;
      try discriminate; try reflexivity.
    now intros e' [= ->].
Qed.

(** X7. [browser.close()] is issued only when every statement before
    it has been issued: if it appears among the calls of the main block,
    the calls are all the calls of the file, in order. *)
Theorem browser_close_only_after_all_steps (w : W) :
  BrowserClose ∈ issued (main w) →
  issued (main w) = Start :: body_steps ++ [Stop].
Proof.
  rewrite main_unfold. unfold with_.
  destruct (result (call Start w)); cbn [issued]; rewrite !call_issued.
  - intros I%list_elem_of_singleton. discriminate.
  - rewrite !elem_of_app, !list_elem_of_singleton.
    intros [I|[I|I]]; try discriminate.
    pose proof (calls_issued_prefix body_steps (final (call Start w))) as P.
    change body_steps
      with ((Launch true :: NewPage :: six_steps) ++ [BrowserClose]) in P at 2.
    apply prefix_holding_last in P; [|apply body_steps_NoDup|exact I].
    now rewrite P.
Qed.

End MainBlock.

(** ** Edge cases of the page *)

Lemma goto_on_closed_page (w : World) (url : string) :
  page w ≠ Live → perform (Goto url) w = (Some TargetClosedError, w).
Proof.
  intros P. unfold perform, playwright, pw_perform, on_page.
  destruct (page w); [reflexivity | now destruct P | reflexivity].
Qed.

(** X8. Called with a page that is not open, [run] fails at its first
    statement with a TargetClosedError: only [goto] is issued and the
    world, files included, is as it was. *)
Theorem run_on_closed_page (w : World) :
  page w ≠ Live →
  run w = mkRun (inl TargetClosedError) [Goto landing_url] w.
Proof.
  intros P. rewrite run_calls. unfold six_steps.
  raises (goto_on_closed_page w landing_url P). reflexivity.
Qed.

(** X9. When the landing locator stands for several headings on the
    landing view, the first wait fails at once with the strict-mode
    error, even if one of them carries the exact text: the script ends
    before any screenshot and writes no file. *)
Theorem ambiguous_landing_heading_fails (t : Target)
    (files : gmap string (list byte)) (env : gmap string string) (v : View) :
  respond t landing_url = Some v →
  (2 ≤ length (resolve landing_heading v))%nat →
  let r := python (boot t files env) in
  result r = inl ElementResolutionError ∧
  issued r =
    [Start; Launch true; NewPage; Goto landing_url;
     ToBeVisible landing_heading; Stop] ∧
  fs (final r) = files ∧
  exit_code r = 1%Z.
Proof.
  intros E N r. subst r.
  assert (to_be_visible landing_heading v = Some ElementResolutionError) as F.
  { unfold to_be_visible.
    destruct (resolve landing_heading v) as [|e1 [|e2 rest]];
      cbn in N; [lia | lia | reflexivity]. }
  rewrite python_boot, (run_heading_missing _ _ _ _ _ E F). cbn. auto.
Qed.

End Further.

(** ** The further properties at sample targets *)

Section FurtherAtSamples.
#[local] Existing Instance ascii_text.

Lemma site_stuck_fails_after_click :
  respond site_stuck landing_url = Some [hero; login] ∧
  is_Some (single_visible landing_heading [hero; login]) ∧
  single_visible login_button [hero; login] = Some login ∧
  single_visible login_heading (activate site_stuck [hero; login] login)
    = None ∧
  let r := python (boot site_stuck ∅ ∅) in
  result r = inl VisibilityTimeout ∧
  issued r =
    [Start; Launch true; NewPage; Goto landing_url;
     ToBeVisible landing_heading; Screenshot landing_png;
     Click login_button; ToBeVisible login_heading; Stop] ∧
  fs (final r) = <[landing_png := png site_stuck [hero; login]]> ∅ ∧
  fs (final r) !! login_png = (∅ : gmap string (list byte)) !! login_png ∧
  exit_code r = 1%Z.
Proof.
  assert (is_Some (single_visible landing_heading [hero; login])) as S
    by (vm_compute; eauto).
  split; [reflexivity|]. split; [exact S|].
  split; [reflexivity|]. split; [reflexivity|].
  exact (welcome_missing_fails_after_click site_stuck ∅ ∅ [hero; login] login
           eq_refl S eq_refl eq_refl).
Defined.

Lemma site_ok_screenshots_show_before_and_after :
  respond site_ok landing_url = Some [hero; login] ∧
  is_Some (single_visible landing_heading [hero; login]) ∧
  single_visible login_button [hero; login] = Some login ∧
  is_Some (single_visible login_heading (activate site_ok [hero; login] login)) ∧
  let r := python (boot site_ok ∅ ∅) in
  fs (final r) !! landing_png = Some (png site_ok [hero; login]) ∧
  fs (final r) !! login_png =
    Some (png site_ok (activate site_ok [hero; login] login)) ∧
  view (final r) = activate site_ok [hero; login] login.
Proof.
  assert (is_Some (single_visible landing_heading [hero; login])) as S1
    by (vm_compute; eauto).
  assert (is_Some (single_visible login_heading
                     (activate site_ok [hero; login] login))) as S2
    by (vm_compute; eauto).
  split; [reflexivity|]. split; [exact S1|].
  split; [reflexivity|]. split; [exact S2|].
  exact (screenshots_show_before_and_after site_ok ∅ ∅ [hero; login] login
           eq_refl S1 eq_refl S2).
Defined.

Lemma stop_is_last_on_site_down :
  perform Start (boot site_down ∅ ∅) = (None, set_driver true (boot site_down ∅ ∅)) ∧
  last (issued (main (boot site_down ∅ ∅))) = Some Stop.
Proof.
  split; [reflexivity|].
  exact (proj1 (proj2 (stop_is_always_last (boot site_down ∅ ∅)
                         (set_driver true (boot site_down ∅ ∅)) eq_refl))).
Defined.

Lemma site_ok_issues_every_call :
  BrowserClose ∈ issued (main (boot site_ok ∅ ∅)) ∧
  issued (main (boot site_ok ∅ ∅)) = Start :: body_steps ++ [Stop].
Proof.
  assert (BrowserClose ∈ issued (main (boot site_ok ∅ ∅))) as I
    by (apply (bool_decide_unpack _); vm_compute; exact I).
  split; [exact I|].
  exact (browser_close_only_after_all_steps (boot site_ok ∅ ∅) I).
Defined.

Lemma run_before_the_page_is_opened :
  page (boot site_ok ∅ ∅) ≠ Live ∧
  run (boot site_ok ∅ ∅) =
    mkRun (inl TargetClosedError) [Goto landing_url] (boot site_ok ∅ ∅).
Proof.
  assert (page (boot site_ok ∅ ∅) ≠ Live) as P by discriminate.
  split; [exact P|]. exact (run_on_closed_page (boot site_ok ∅ ∅) P).
Defined.

Lemma site_two_heroes_fails_at_first_wait :
  respond site_two_heroes landing_url = Some [hero; hero_longer; login] ∧
  (2 ≤ length (resolve landing_heading [hero; hero_longer; login]))%nat ∧
  renders_heading_exactly landing_text [hero; hero_longer; login] ∧
  let r := python (boot site_two_heroes ∅ ∅) in
  result r = inl ElementResolutionError ∧
  issued r =
    [Start; Launch true; NewPage; Goto landing_url;
     ToBeVisible landing_heading; Stop] ∧
  fs (final r) = ∅ ∧
  exit_code r = 1%Z.
Proof.
  assert (2 ≤ length (resolve landing_heading [hero; hero_longer; login]))%nat
    as N by (vm_compute; lia).
  split; [reflexivity|]. split; [exact N|]. split.
  - exists hero. repeat split. left.
  - exact (ambiguous_landing_heading_fails site_two_heroes ∅ ∅
             [hero; hero_longer; login] eq_refl N).
Defined.

Lemma site_ok_passes_and_behaves :
  exit_code (python (boot site_ok ∅ ∅)) = 0%Z ∧ well_behaved site_ok.
Proof.
  assert (exit_code (python (boot site_ok ∅ ∅)) = 0%Z) as E
    by (vm_compute; reflexivity).
  split; [exact E|].
  exact (exit_0_only_if_well_behaved site_ok ∅ ∅ E).
Defined.

Lemma site_down_navigation_error_tells :
  result (python (boot site_down ∅ ∅)) = inl NavigationError ∧
  respond site_down landing_url = None.
Proof.
  assert (result (python (boot site_down ∅ ∅)) = inl NavigationError) as R
    by (vm_compute; reflexivity).
  split; [exact R|].
  exact (proj1 (failure_kind_tells_the_step site_down ∅ ∅) R).
Defined.

End FurtherAtSamples.
